(** * newrelic_synthetics.monitors: the Synthetics monitors client

    A shallow embedding of [src/newrelic_synthetics/monitors.py] (class
    [Monitors]) together with the properties stated about it.

    Layout:
    - [Python]   : the values and built-ins the module relies on
                   (dict literals and [dict.update], [str.format] on an
                   integer, [str.rsplit], truthiness);
    - [Http]     : requests, responses, the remote end and the
                   state-and-error monad in which a method runs;
    - [Base]     : the base client [Synthetics] the class inherits from;
    - [Monitors] : the seven methods of the class, one definition each;
    - the theorems. *)

From Stdlib Require Import Ascii String.
From stdpp Require Import gmap strings list fin_maps pretty.

Set Warnings "-register-all".
Set Default Proof Using "Type".

Local Open Scope Z_scope.
Local Open Scope string_scope.

(* ===================================================================== *)
(** ** Python values and built-ins *)
(* ===================================================================== *)

Module Python.

(** The values that travel through the client: arguments, JSON payloads
    and decoded JSON bodies.  A dict with string keys is a finite map;
    two dicts are equal when they have the same items, whatever the
    insertion order, which is Python's [==] on dicts. *)
Inductive PyVal : Type :=
  | VNone
  | VBool (b : bool)
  | VInt (z : Z)
  | VStr (s : string)
  | VList (l : list PyVal)
  | VDict (d : gmap string PyVal).

(** [x is not None] *)
Definition is_not_None (x : PyVal) : bool :=
  match x with
  | VNone => false
  | _ => true
  end.

(** Truthiness of an optional integer argument ([page=None] or an
    [int]): [None] and [0] are falsy, every other integer is truthy. *)
Definition truthy (page : option Z) : bool :=
  match page with
  | None => false
  | Some n => negb (n =? 0)%Z
  end.

(** ['{0}'.format(n)] for an integer [n]: its decimal numeral, with a
    leading minus sign when negative. *)
Definition format_int (n : Z) : string := pretty n.

(** [d[k] = v] *)
Definition setitem (k : string) (v : PyVal)
    (d : gmap string PyVal) : gmap string PyVal := <[k := v]> d.

(** [d.update] called with the keyword arguments [kwargs]: every item
    of [kwargs] is stored into [d], one after the other. *)
Definition dict_update (d kwargs : gmap string PyVal) : gmap string PyVal :=
  map_fold setitem d kwargs.

(** Binding of the keyword arguments of a call to a signature that ends
    in a catch-all keyword parameter.  [extra] holds the keywords given
    beside the values of the named parameters; a keyword named like one
    of the [parameters] gives that parameter a second value, which Python
    refuses with [TypeError] before the body runs.  [binds] tells whether
    the call is accepted; the body then sees [extra] as its [kwargs]. *)
Definition binds (parameters : list string) (extra : gmap string PyVal) : bool :=
  forallb (λ p, bool_decide (extra !! p = None)) parameters.

(** [d[k]] on a mapping of header names to header values: the value,
    or [None] here where Python raises [KeyError]. *)
Definition getitem (k : string) (d : gmap string string) : option string :=
  d !! k.

(** The last occurrence of the character [sep] in [s], as the pair of
    what stands before it and what stands after it. *)
Fixpoint rpartition (sep : Ascii.ascii) (s : string) : option (string * string) :=
  match s with
  | EmptyString => None
  | String a rest =>
      match rpartition sep rest with
      | Some (before, after) => Some (String a before, after)
      | None => if decide (a = sep) then Some (EmptyString, rest) else None
      end
  end.

(** [s.rsplit(sep, 1)] for a one-character separator: at most one
    split, made at the rightmost separator. *)
Definition rsplit1 (sep : Ascii.ascii) (s : string) : list string :=
  match rpartition sep s with
  | Some (before, after) => [before; after]
  | None => [s]
  end.

(** [l[-1]]: the last item; [None] here where Python raises
    [IndexError] on an empty list. *)
Definition item_last (l : list string) : option string := last l.

(** Does the character occur in the string? *)
Fixpoint occurs (c : Ascii.ascii) (s : string) : bool :=
  match s with
  | EmptyString => false
  | String a rest => if decide (a = c) then true else occurs c rest
  end.

End Python.

(* ===================================================================== *)
(** ** HTTP exchanges and the monad of a method call *)
(* ===================================================================== *)

Module Http.
Import Python.

Inductive Method : Type := GET | POST | PUT | DELETE.

(** What one call of a transport primitive hands to the HTTP library:
    the verb and the keyword arguments [url], [headers], [params] and
    [data]; an argument that the call does not pass is [None]. *)
Record Request : Type := mkRequest {
  method : Method;
  url : string;
  req_headers : gmap string string;
  params : option string;
  data : option (gmap string PyVal)
}.

(** The response object of the HTTP library, reduced to what the client
    reads: the status code, the response headers, the body text and the
    body decoded as JSON ([None] when the body is not JSON). *)
Record Response : Type := mkResponse {
  status_code : Z;
  resp_headers : gmap string string;
  text : string;
  json : option PyVal
}.

(** An exchange either fails below HTTP (DNS, connection, timeout) or
    produces a response. *)
Inductive Outcome : Type :=
  | NoAnswer (reason : string)
  | Answer (r : Response).

(** The remote end: it answers a request and may change its own state
    (monitors are created, replaced and deleted there). *)
Class Remote (S : Type) : Type :=
  serve : Request → S → S * Outcome.

(** The world a method call runs in: the exchanges made so far, oldest
    first, each with the outcome it had, and the state of the remote
    end. *)
Record World (S : Type) : Type := mkWorld {
  trace : list (Request * Outcome);
  remote : S
}.
Arguments mkWorld {S} _ _.
Arguments trace {S} _.
Arguments remote {S} _.

Inductive Exn : Type :=
  | TransportError (reason : string)
  | ServerError (status : Z) (body : string)
  | JSONDecodeError
  | KeyError (key : string)
  | IndexError
  | TypeError.

Inductive Result (A : Type) : Type :=
  | Returns (a : A)
  | Raises (e : Exn).
Arguments Returns {A} _.
Arguments Raises {A} _.

(** A method call: a state transformer on the world that returns a
    value or raises. *)
Definition Py (S A : Type) : Type := World S → World S * Result A.

(** A call that touches nothing and ends as the given result. *)
Definition lift {S A} (r : Result A) : Py S A := λ w, (w, r).

Definition ret {S A} (a : A) : Py S A := lift (Returns a).

Definition raise {S A} (e : Exn) : Py S A := lift (Raises e).

Definition bind {S A B} (m : Py S A) (k : A → Py S B) : Py S B :=
  λ w, match m w with
       | (w', Returns a) => k a w'
       | (w', Raises e) => (w', Raises e)
       end.

#[global] Instance py_ret {S} : MRet (Py S) := λ A, @ret S A.
#[global] Instance py_bind {S} : MBind (Py S) := λ A B k m, bind m k.

(** One exchange: the remote end answers the request, and the request
    is recorded together with its outcome. *)
Definition exchange {S} `{Remote S} (req : Request) : Py S Outcome :=
  λ w, let '(s', out) := serve req (remote w) in
       (mkWorld (trace w ++ [(req, out)]) s', Returns out).

(** What a call does, seen from outside: the exchanges it adds to the
    trace, the requests among them, and what it returns or raises. *)
Definition issued {S A} (m : Py S A) (w : World S) : list (Request * Outcome) :=
  drop (length (trace w)) (trace (m w).1).

Definition requests {S A} (m : Py S A) (w : World S) : list Request :=
  (issued m w).*1.

Definition result {S A} (m : Py S A) (w : World S) : Result A := (m w).2.

(** A remote end that plays a script: it answers the successive
    requests with the successive outcomes of a list, and no longer
    answers once the list is used up. *)
#[global] Instance scripted : Remote (list Outcome) :=
  λ _ script,
    match script with
    | [] => ([], NoAnswer "script exhausted")
    | out :: rest => (rest, out)
    end.

(** A fresh world in front of a scripted remote end. *)
Definition fresh (script : list Outcome) : World (list Outcome) :=
  mkWorld [] script.

End Http.

(* ===================================================================== *)
(** ** The base client [Synthetics] *)
(* ===================================================================== *)

Module Base.
Import Python Http.

(** The configuration an instance carries: [self.URL] and
    [self.headers].  Their values are set by the base class. *)
Record Synthetics : Type := mkSynthetics {
  URL : string;
  headers : gmap string string
}.

(** Modelled from the spec: the [ok] attribute of the response object,
    whose class is not part of [monitors.py].  The spec reads it as
    "the transport reports a successful (2xx) status". *)
Definition ok (r : Response) : bool :=
  (200 <=? status_code r)%Z && (status_code r <? 300)%Z.

(** Modelled from the spec: what [Synthetics._get], defined in the
    base module, makes of the outcome of its exchange.  A failure below
    HTTP propagates; a non-2xx response propagates as the transport's
    error signal, carrying the status and the body; otherwise the
    decoded JSON body is returned. *)
Definition get_result (out : Outcome) : Result PyVal :=
  match out with
  | NoAnswer reason => Raises (TransportError reason)
  | Answer r =>
      if ok r then
        match json r with
        | Some body => Returns body
        | None => Raises JSONDecodeError
        end
      else Raises (ServerError (status_code r) (text r))
  end.

(** Modelled from the spec: [Synthetics._get], one GET exchange shaped
    by [get_result]. *)
Definition _get {S} `{Remote S} (url : string)
    (headers : gmap string string) (params : option string) : Py S PyVal :=
  out ← exchange (mkRequest GET url headers params None);
  lift (get_result out).

(** Modelled from the spec: what the raw mode ([get_raw_response=True])
    of [Synthetics._post], [Synthetics._put] and [Synthetics._delete],
    defined in the base module, makes of the outcome of its exchange;
    [monitors.py] calls them in no other mode.  A failure below HTTP
    propagates; any response, 2xx or not, is handed back as the
    response object. *)
Definition raw_result (out : Outcome) : Result Response :=
  match out with
  | NoAnswer reason => Raises (TransportError reason)
  | Answer r => Returns r
  end.

(** Modelled from the spec: a raw call, one exchange shaped by
    [raw_result]. *)
Definition raw {S} `{Remote S} (req : Request) : Py S Response :=
  out ← exchange req;
  lift (raw_result out).

(** Modelled from the spec: [Synthetics._post] in raw mode, a POST of
    [data]. *)
Definition _post {S} `{Remote S} (url : string)
    (headers : gmap string string) (data : gmap string PyVal) : Py S Response :=
  raw (mkRequest POST url headers None (Some data)).

(** Modelled from the spec: [Synthetics._put] in raw mode, a PUT of
    [data]. *)
Definition _put {S} `{Remote S} (url : string)
    (headers : gmap string string) (data : gmap string PyVal) : Py S Response :=
  raw (mkRequest PUT url headers None (Some data)).

(** Modelled from the spec: [Synthetics._delete] in raw mode, a DELETE
    without a body. *)
Definition _delete {S} `{Remote S} (url : string)
    (headers : gmap string string) : Py S Response :=
  raw (mkRequest DELETE url headers None None).

(** Modelled from the spec: [Synthetics.build_param_string], defined in
    the base module.  It builds the query string from a list of
    optional [key=value] filters: the filters that are present, joined
    by [&]; nothing at all for a filter that is absent. *)
Definition build_param_string (filters : list (option string)) : string :=
  String.concat "&" (omap id filters).

End Base.

(* ===================================================================== *)
(** ** The class [Monitors] *)
(* ===================================================================== *)

Module Monitors.
Import Python Http Base.

Section Methods.
Context {S : Type} `{Remote S}.
Variable self : Synthetics.

(** [str(page)] as [format] renders the argument of [list]. *)
Definition format_page (page : option Z) : string :=
  match page with
  | None => "None"
  | Some n => format_int n
  end.

(** [Monitors.list] ([list_] here: [list] is the type of lists). *)
Definition list_ (page : option Z) : Py S PyVal :=
  let filters :=
    [ if truthy page then Some ("page=" +:+ format_page page) else None ] in
  _get (URL self +:+ "monitors") (headers self)
       (Some (build_param_string filters)).

(** [Monitors.show] *)
Definition show (id : string) : Py S PyVal :=
  _get (URL self +:+ "monitors/" +:+ id) (headers self) None.

(** [Monitors.show_locations] *)
Definition show_locations : Py S PyVal :=
  _get (URL self +:+ "locations") (headers self) None.

(** The dict literal both [create] and [update] start from: the five
    items are stored in the order in which they are written. *)
Definition required_fields (name type frequency locations status : PyVal)
    : gmap string PyVal :=
  setitem "status" status
    (setitem "locations" locations
      (setitem "frequency" frequency
        (setitem "type" type
          (setitem "name" name ∅)))).

(** The named parameters of [create]. *)
Definition create_parameters : list string :=
  ["self"; "name"; "type"; "frequency"; "locations"; "status"].

(** The named parameters of [update]. *)
Definition update_parameters : list string :=
  ["self"; "id"; "name"; "type"; "frequency"; "locations"; "status"].

(** [Monitors.create], called with the values of its five parameters and
    the further keywords [kwargs].  The call is bound first; the body
    runs when it binds. *)
Definition create (name type frequency locations status : PyVal)
    (kwargs : gmap string PyVal) : Py S string :=
  if binds create_parameters kwargs then
    let data := required_fields name type frequency locations status in
    let data := dict_update data kwargs in
    response ← _post (URL self +:+ "monitors") (headers self) data;
    match getitem "Location" (resp_headers response) with
    | None => raise (KeyError "Location")
    | Some location =>
        match item_last (rsplit1 "/" location) with
        | None => raise IndexError
        | Some segment => ret segment
        end
    end
  else raise TypeError.

(** [Monitors.update], called with the values of its six parameters and
    the further keywords [kwargs].  The call is bound first; the body
    runs when it binds. *)
Definition update (id : string)
    (name type frequency locations status : PyVal)
    (kwargs : gmap string PyVal) : Py S bool :=
  if binds update_parameters kwargs then
    let data := required_fields name type frequency locations status in
    let data := dict_update data kwargs in
    response ← _put (URL self +:+ "monitors/" +:+ id) (headers self) data;
    if ok response then ret true else ret false
  else raise TypeError.

(** [Monitors.update_script] *)
Definition update_script (id : string) (scriptText : PyVal)
    (scriptLocations : PyVal) : Py S bool :=
  let data := setitem "scriptText" scriptText ∅ in
  let data :=
    if is_not_None scriptLocations
    then setitem "scriptLocations" scriptLocations data
    else data in
  response ← _put (URL self +:+ "monitors/" +:+ id +:+ "/script")
                  (headers self) data;
  if ok response then ret true else ret false.

(** [Monitors.delete] *)
Definition delete (id : string) : Py S bool :=
  response ← _delete (URL self +:+ "monitors/" +:+ id) (headers self);
  if ok response then ret true else ret false.

End Methods.

End Monitors.

(* ===================================================================== *)
(** ** Sample data *)
(* ===================================================================== *)

Module Sample.
Import Python Http Base.

(** A client instance. *)
Definition client : Synthetics :=
  mkSynthetics "https://synthetics.newrelic.com/synthetics/api/v3/"
               {[ "X-Api-Key" := "secret" ]}.

(** The answer to a successful creation. *)
Definition created : Response :=
  mkResponse 201
    {[ "Location" :=
         "https://synthetics.newrelic.com/synthetics/api/v3/monitors/abc-123" ]}
    EmptyString None.

(** An empty 204 answer, as a successful PUT or DELETE gets. *)
Definition no_content : Response :=
  mkResponse 204 ∅ EmptyString None.

(** A 404 answer with a JSON body. *)
Definition not_found : Response :=
  mkResponse 404 ∅ "{}" (Some (VDict ∅)).

(** A 500 answer with a body that is not JSON. *)
Definition server_error : Response :=
  mkResponse 500 ∅ "Internal Server Error" None.

(** A 200 answer holding one page of monitors and no [Location]. *)
Definition listing : Response :=
  mkResponse 200 {[ "Content-Type" := "application/json" ]}
    "{monitors: []}"
    (Some (VDict {[ "monitors" := VList [] ]})).

(** The answer to a creation whose [Location] ends in a slash. *)
Definition created_trailing_slash : Response :=
  mkResponse 201
    {[ "Location" :=
         "https://synthetics.newrelic.com/synthetics/api/v3/monitors/abc-123/" ]}
    EmptyString None.

(** An answer with the [Location] of [created] but another status, other
    headers beside it and a body. *)
Definition accepted : Response :=
  mkResponse 202
    {[ "Location" :=
         "https://synthetics.newrelic.com/synthetics/api/v3/monitors/abc-123";
       "Content-Type" := "text/plain" ]}
    "queued" None.

(** The arguments of a simple monitor. *)
Definition name : PyVal := VStr "ping".
Definition type : PyVal := VStr "SIMPLE".
Definition frequency : PyVal := VInt 5.
Definition locations : PyVal := VList [VStr "AWS_US_WEST_1"].
Definition status : PyVal := VStr "ENABLED".

(** Extra keyword arguments of a simple monitor. *)
Definition extra : gmap string PyVal :=
  {[ "uri" := VStr "http://example.com"; "slaThreshold" := VInt 7 ]}.

(** Keywords one of which is named like the required field [name]. *)
Definition colliding : gmap string PyVal :=
  {[ "uri" := VStr "http://example.com"; "name" := VStr "renamed" ]}.


End Sample.

(* ===================================================================== *)
(** ** Facts about the built-ins *)
(* ===================================================================== *)

Section BuiltinFacts.
Import Python.

Lemma rpartition_None sep s :
  rpartition sep s = None → occurs sep s = false.
Proof.
  induction s as [|a rest IH]; simpl; [done|].
  destruct (rpartition sep rest) as [[before after]|]; [done|].
  case_decide; [done|]. intros _. by apply IH.
Qed.

Lemma rpartition_Some sep s before after :
  rpartition sep s = Some (before, after) →
  s = before +:+ String sep after ∧ occurs sep after = false.
Proof.
  revert before. induction s as [|a rest IH]; intros before; simpl; [done|].
  destruct (rpartition sep rest) as [[b' a']|] eqn:E.
  - intros [= <- <-]. destruct (IH b' eq_refl) as [-> Hocc]. done.
  - case_decide as Ha; [|done]. intros [= <- <-]. subst a.
    split; [done|]. by apply rpartition_None.
Qed.

(** The last item of [s.rsplit(sep, 1)] always exists; it holds no
    separator, and it is either all of [s] (no separator in [s]) or what
    follows a separator of [s]. *)
Lemma rsplit1_last sep s :
  ∃ segment,
    item_last (rsplit1 sep s) = Some segment
    ∧ occurs sep segment = false
    ∧ ((∃ before, s = before +:+ String sep segment)
       ∨ (occurs sep s = false ∧ segment = s)).
Proof.
  unfold rsplit1, item_last.
  destruct (rpartition sep s) as [[before after]|] eqn:E.
  - apply rpartition_Some in E as [-> Hocc].
    exists after. split_and!; [done|done|]. left. by exists before.
  - apply rpartition_None in E.
    exists s. split_and!; [done|done|]. by right.
Qed.

(** [d.update] with keyword arguments is the overlay of the keyword
    arguments on [d]. *)
Lemma dict_update_union (d kwargs : gmap string PyVal) :
  dict_update d kwargs = kwargs ∪ d.
Proof.
  unfold dict_update.
  apply (map_fold_weak_ind (λ r m, r = m ∪ d)).
  - by rewrite (left_id_L ∅ (∪)).
  - intros k v m r _ ->. unfold setitem. by rewrite insert_union_l.
Qed.

Lemma append_assoc (s1 s2 s3 : string) :
  (s1 +:+ s2) +:+ s3 = s1 +:+ (s2 +:+ s3).
Proof.
  induction s1 as [|a s1 IH]; [done|].
  change (String a ((s1 +:+ s2) +:+ s3) = String a (s1 +:+ (s2 +:+ s3))).
  by rewrite IH.
Qed.

Lemma truthy_positive (n : Z) : (0 < n)%Z → truthy (Some n) = true.
Proof. intros Hn. simpl. destruct (Z.eqb_spec n 0); [lia|done]. Qed.

End BuiltinFacts.

(* ===================================================================== *)
(** ** Facts about the transport primitives *)
(* ===================================================================== *)

Section TransportFacts.
Import Python Http Base.
Context {S : Type} `{Remote S}.

Lemma issued_app {A} (m : Py S A) (w : World S)
    (l : list (Request * Outcome)) :
  trace (m w).1 = (trace w ++ l)%list → issued m w = l.
Proof. unfold issued. intros ->. apply drop_app_length. Qed.

(** A call made of one exchange followed by steps that touch nothing:
    it issues that one request, and its result is the result of the
    steps on the outcome. *)
Lemma one_exchange {A} (req : Request) (k : Outcome → Py S A)
    (f : Outcome → Result A) (w : World S) :
  (∀ out w', k out w' = (w', f out)) →
  ∃ out,
    issued (exchange req ≫= k) w = [(req, out)]
    ∧ result (exchange req ≫= k) w = f out.
Proof.
  intros Hk. unfold result, issued, exchange, mbind, py_bind, bind.
  destruct (serve req (remote w)) as [s' out].
  exists out. rewrite Hk. simpl. by rewrite drop_app_length.
Qed.

(** [_get] makes exactly one exchange, a GET with the arguments it was
    given, and shapes its outcome with [get_result]. *)
Lemma _get_run url hdrs params (w : World S) :
  ∃ out,
    issued (_get url hdrs params) w
      = [(mkRequest GET url hdrs params None, out)]
    ∧ result (_get url hdrs params) w = get_result out.
Proof. by apply one_exchange. Qed.

(** A raw call followed by steps that touch nothing. *)
Lemma raw_run {A} (req : Request) (k : Response → Py S A)
    (f : Response → Result A) (w : World S) :
  (∀ r w', k r w' = (w', f r)) →
  ∃ out,
    issued (raw req ≫= k) w = [(req, out)]
    ∧ result (raw req ≫= k) w =
        match out with
        | NoAnswer reason => Raises (TransportError reason)
        | Answer r => f r
        end.
Proof.
  intros Hk. unfold result, issued, raw, exchange, mbind, py_bind, bind, lift.
  destruct (serve req (remote w)) as [s' out].
  exists out. simpl. destruct out as [reason|r]; simpl.
  - by rewrite drop_app_length.
  - rewrite Hk. simpl. by rewrite drop_app_length.
Qed.

(** A call that is refused makes no exchange. *)
Lemma refused_issued {A} (e : Exn) (w : World S) :
  issued (raise e : Py S A) w = [].
Proof. unfold issued, raise, lift. simpl. apply drop_all. Qed.

(** A guarded call that made an exchange passed its guard. *)
Lemma guarded_issued {A} (b : bool) (m : Py S A) (e : Exn) (w : World S)
    (x : Request * Outcome) :
  issued (if b then m else raise e) w = [x] → b = true.
Proof.
  destruct b; [done|]. by rewrite refused_issued.
Qed.

End TransportFacts.

(** In a goal about a guarded call, use the exchange recorded in [H] to
    pass the guard. *)
Ltac pass_guard H :=
  let Hbinds := fresh "Hbinds" in
  pose proof (guarded_issued _ _ _ _ _ H) as Hbinds;
  rewrite Hbinds in H |- *.

(* ===================================================================== *)
(** ** Properties of the methods *)
(* ===================================================================== *)

Section MethodFacts.
Import Python Http Base.
Context {S : Type} `{Remote S}.
Variable self : Synthetics.

(** The boolean a write method makes of a response. *)
Lemma flag_step (r : Response) (w' : World S) :
  (if ok r then ret true else ret false) w'
  = (w', if ok r then Returns true else Returns false).
Proof. by destruct (ok r). Qed.

Lemma ok_2xx (r : Response) :
  (200 ≤ status_code r < 300)%Z → ok r = true.
Proof.
  intros [Hlo Hhi]. unfold ok.
  apply andb_true_iff. split; [by apply Z.leb_le | by apply Z.ltb_lt].
Qed.

Lemma ok_not_2xx (r : Response) :
  ¬ (200 ≤ status_code r < 300)%Z → ok r = false.
Proof.
  intros Hn. unfold ok. apply andb_false_iff.
  destruct (Z.leb_spec 200 (status_code r)); [right|by left].
  apply Z.ltb_ge. lia.
Qed.

(** A write method that ends on the [ok] flag of the response of its
    one raw exchange returns that flag. *)
Lemma flagged_run (req : Request) (w : World S) :
  ∃ out,
    issued (raw req ≫= λ response,
              if ok response then ret true else ret false) w = [(req, out)]
    ∧ result (raw req ≫= λ response,
                if ok response then ret true else ret false) w =
        match out with
        | NoAnswer reason => Raises (TransportError reason)
        | Answer r => if ok r then Returns true else Returns false
        end.
Proof. apply (raw_run req _ (λ r, if ok r then Returns true else Returns false)), flag_step. Qed.

Lemma flagged_answer (req req' : Request) (r : Response) (w : World S) :
  issued (raw req ≫= λ response,
            if ok response then ret true else ret false) w
    = [(req', Answer r)] →
  result (raw req ≫= λ response,
            if ok response then ret true else ret false) w
    = if ok r then Returns true else Returns false.
Proof.
  destruct (flagged_run req w) as (out & -> & ->). by intros [= _ ->].
Qed.

(** C1.  Whatever response [r] the PUT issued by [update] receives,
    [update] returns [True] when the status of [r] is a 2xx code and
    [False] when it is not; headers and body of [r] play no part. *)
Theorem update_true_iff_2xx (id : string)
    (name type frequency locations status : PyVal)
    (kwargs : gmap string PyVal) (w : World S)
    (req : Request) (r : Response) :
  issued (Monitors.update self id name type frequency locations status kwargs) w
    = [(req, Answer r)] →
  ((200 ≤ status_code r < 300)%Z →
     result (Monitors.update self id name type frequency locations status kwargs) w
       = Returns true)
  ∧ (¬ (200 ≤ status_code r < 300)%Z →
     result (Monitors.update self id name type frequency locations status kwargs) w
       = Returns false).
Proof.
  unfold Monitors.update, _put.
  intros Hissued. pass_guard Hissued. apply flagged_answer in Hissued.
  split; intros Hcode.
  - by rewrite Hissued, ok_2xx.
  - by rewrite Hissued, ok_not_2xx.
Qed.

(** [create] makes exactly one exchange, a POST of the assembled payload
    to the collection, and reads the [Location] header of the answer. *)
Lemma create_run (name type frequency locations status : PyVal)
    (kwargs : gmap string PyVal) (w : World S) :
  binds Monitors.create_parameters kwargs = true →
  ∃ out,
    issued (Monitors.create self name type frequency locations status kwargs) w
      = [(mkRequest POST (URL self +:+ "monitors") (headers self) None
            (Some (dict_update
                     (Monitors.required_fields name type frequency
                                               locations status)
                     kwargs)),
          out)]
    ∧ result (Monitors.create self name type frequency locations status kwargs) w
      = match out with
        | NoAnswer reason => Raises (TransportError reason)
        | Answer r =>
            match resp_headers r !! "Location" with
            | None => Raises (KeyError "Location")
            | Some location =>
                match item_last (rsplit1 "/" location) with
                | None => Raises IndexError
                | Some segment => Returns segment
                end
            end
        end.
Proof.
  unfold Monitors.create, _post. intros ->. apply raw_run.
  intros r w'. unfold getitem.
  destruct (resp_headers r !! "Location") as [location|]; [|done].
  by destruct (item_last (rsplit1 "/" location)).
Qed.

(** A call of [create] that made an exchange was bound. *)
Lemma create_bound (name type frequency locations status : PyVal)
    (kwargs : gmap string PyVal) (w : World S) (x : Request * Outcome) :
  issued (Monitors.create self name type frequency locations status kwargs) w
    = [x] →
  binds Monitors.create_parameters kwargs = true.
Proof. unfold Monitors.create. apply guarded_issued. Qed.

(** What [create] makes of the answer to its POST. *)
Lemma create_answered (name type frequency locations status : PyVal)
    (kwargs : gmap string PyVal) (w : World S)
    (req : Request) (r : Response) :
  issued (Monitors.create self name type frequency locations status kwargs) w
    = [(req, Answer r)] →
  result (Monitors.create self name type frequency locations status kwargs) w
  = match resp_headers r !! "Location" with
    | None => Raises (KeyError "Location")
    | Some location =>
        match item_last (rsplit1 "/" location) with
        | None => Raises IndexError
        | Some segment => Returns segment
        end
    end.
Proof.
  intros Hissued.
  destruct (create_run name type frequency locations status kwargs w
              (create_bound _ _ _ _ _ _ _ _ Hissued)) as (out & Hrun & ->).
  rewrite Hrun in Hissued. by injection Hissued as _ ->.
Qed.

(** C2.  When the answer to the POST carries a [Location] header,
    [create] returns the trailing path segment of its value: a string
    without [/] that is what follows the last [/] of the value, or the
    whole value when the value has no [/]. *)
Theorem create_returns_trailing_segment
    (name type frequency locations status : PyVal)
    (kwargs : gmap string PyVal) (w : World S)
    (req : Request) (r : Response) (location : string) :
  issued (Monitors.create self name type frequency locations status kwargs) w
    = [(req, Answer r)] →
  resp_headers r !! "Location" = Some location →
  ∃ segment,
    result (Monitors.create self name type frequency locations status kwargs) w
      = Returns segment
    ∧ occurs "/" segment = false
    ∧ ((∃ before, location = before +:+ "/" +:+ segment)
       ∨ (occurs "/" location = false ∧ segment = location)).
Proof.
  intros Hissued Hlocation.
  rewrite (create_answered _ _ _ _ _ _ _ _ _ Hissued), Hlocation.
  destruct (rsplit1_last "/" location) as (segment & -> & Hfree & Hplace).
  by exists segment.
Qed.

(** C8.  When the answer to the POST carries no [Location] header,
    [create] does not return an ID: it raises [KeyError]. *)
Theorem create_without_location_raises
    (name type frequency locations status : PyVal)
    (kwargs : gmap string PyVal) (w : World S)
    (req : Request) (r : Response) :
  issued (Monitors.create self name type frequency locations status kwargs) w
    = [(req, Answer r)] →
  resp_headers r !! "Location" = None →
  result (Monitors.create self name type frequency locations status kwargs) w
    = Raises (KeyError "Location").
Proof.
  intros Hissued Hlocation.
  by rewrite (create_answered _ _ _ _ _ _ _ _ _ Hissued), Hlocation.
Qed.

(** [update] makes exactly one exchange, a PUT of the assembled payload
    to the monitor's own path. *)
Lemma update_run (id : string)
    (name type frequency locations status : PyVal)
    (kwargs : gmap string PyVal) (w : World S) :
  binds Monitors.update_parameters kwargs = true →
  ∃ out,
    issued (Monitors.update self id name type frequency locations status kwargs) w
      = [(mkRequest PUT (URL self +:+ "monitors/" +:+ id) (headers self) None
            (Some (dict_update
                     (Monitors.required_fields name type frequency
                                               locations status)
                     kwargs)),
          out)].
Proof.
  unfold Monitors.update, _put. intros ->.
  destruct (flagged_run
    (mkRequest PUT (URL self +:+ "monitors/" +:+ id) (headers self) None
       (Some (dict_update
                (Monitors.required_fields name type frequency locations status)
                kwargs))) w) as (out & Hissued & _).
  by exists out.
Qed.

(** The dict literal of [create] and [update] holds the five required
    fields under their names. *)
Lemma required_fields_items (name type frequency locations status : PyVal) :
  Monitors.required_fields name type frequency locations status
  = {[ "name" := name; "type" := type; "frequency" := frequency;
       "locations" := locations; "status" := status ]}.
Proof.
  unfold Monitors.required_fields, setitem.
  apply map_eq. intros k.
  repeat (rewrite lookup_insert; case_decide; simplify_map_eq; try done).
Qed.

(** Under a binding, no keyword has the name of a parameter. *)
Lemma binds_lookup (parameters : list string) (kwargs : gmap string PyVal)
    (p : string) :
  binds parameters kwargs = true → p ∈ parameters → kwargs !! p = None.
Proof.
  unfold binds. intros Hall Hin.
  apply list_elem_of_In in Hin.
  pose proof (proj1 (forallb_forall _ _) Hall p Hin) as Hp.
  by apply bool_decide_eq_true in Hp.
Qed.

(** A keyword that has the name of a parameter prevents the binding. *)
Lemma binds_refuses (parameters : list string) (kwargs : gmap string PyVal)
    (p : string) :
  p ∈ parameters → is_Some (kwargs !! p) → binds parameters kwargs = false.
Proof.
  intros Hin [v Hv].
  destruct (binds parameters kwargs) eqn:Hb; [|done].
  rewrite (binds_lookup _ _ _ Hb Hin) in Hv. discriminate.
Qed.


Lemma binds_update_id (kwargs : gmap string PyVal) :
  binds Monitors.update_parameters kwargs = true → kwargs !! "id" = None.
Proof.
  intros Hb. apply (binds_lookup _ _ _ Hb).
  unfold Monitors.update_parameters. by repeat constructor.
Qed.


(** The names of the five required fields are parameters of both
    methods. *)
Lemma required_are_parameters (k : string) :
  k ∈ ["name"; "type"; "frequency"; "locations"; "status"] →
  k ∈ Monitors.create_parameters ∧ k ∈ Monitors.update_parameters.
Proof.
  unfold Monitors.create_parameters, Monitors.update_parameters.
  rewrite !elem_of_cons. tauto.
Qed.

(** A call of [create] or [update] that does not bind raises [TypeError]
    and sends nothing. *)
Lemma create_refused (name type frequency locations status : PyVal)
    (kwargs : gmap string PyVal) (w : World S) :
  binds Monitors.create_parameters kwargs = false →
  requests (Monitors.create self name type frequency locations status kwargs) w
    = []
  ∧ result (Monitors.create self name type frequency locations status kwargs) w
    = Raises TypeError.
Proof.
  unfold requests, Monitors.create. intros ->.
  by rewrite refused_issued.
Qed.

Lemma update_refused (id : string)
    (name type frequency locations status : PyVal)
    (kwargs : gmap string PyVal) (w : World S) :
  binds Monitors.update_parameters kwargs = false →
  requests (Monitors.update self id name type frequency locations status
                            kwargs) w = []
  ∧ result (Monitors.update self id name type frequency locations status
                            kwargs) w = Raises TypeError.
Proof.
  unfold requests, Monitors.update. intros ->.
  by rewrite refused_issued.
Qed.

(** The payload of a call that binds: the keyword fields laid over the
    five required fields, none of which they touch. *)
Lemma bound_payload (name type frequency locations status : PyVal)
    (kwargs : gmap string PyVal) :
  (∀ k, k ∈ ["name"; "type"; "frequency"; "locations"; "status"] →
        kwargs !! k = None) →
  dict_update (Monitors.required_fields name type frequency locations status)
              kwargs
    = kwargs ∪ {[ "name" := name; "type" := type; "frequency" := frequency;
                  "locations" := locations; "status" := status ]}
  ∧ (∀ k v, kwargs !! k = Some v →
       dict_update (Monitors.required_fields name type frequency locations
                                             status) kwargs !! k = Some v)
  ∧ dict_update (Monitors.required_fields name type frequency locations status)
                kwargs !! "name" = Some name
  ∧ dict_update (Monitors.required_fields name type frequency locations status)
                kwargs !! "type" = Some type
  ∧ dict_update (Monitors.required_fields name type frequency locations status)
                kwargs !! "frequency" = Some frequency
  ∧ dict_update (Monitors.required_fields name type frequency locations status)
                kwargs !! "locations" = Some locations
  ∧ dict_update (Monitors.required_fields name type frequency locations status)
                kwargs !! "status" = Some status.
Proof.
  intros Hfree.
  rewrite dict_update_union, required_fields_items.
  split; [done|]. split.
  { intros k v Hk. by apply lookup_union_Some_l. }
  split_and!;
    (rewrite lookup_union_r;
      [by simplify_map_eq | apply Hfree; by repeat constructor]).
Qed.

(** C3, as amended.  The payload that a call of [create] or [update]
    sends is the five required fields together with the extra keyword
    fields: every extra field is in it with its value, and every required
    field with the value of its parameter.  An extra field never collides
    with a required field: a call with a keyword named like a required
    field does not bind, raises [TypeError] and sends nothing. *)
Theorem payload_is_required_plus_extra (id : string)
    (name type frequency locations status : PyVal)
    (kwargs : gmap string PyVal) (w : World S) :
  (binds Monitors.create_parameters kwargs = true →
   ∃ payload : gmap string PyVal,
     data <$> requests
       (Monitors.create self name type frequency locations status kwargs) w
       = [Some payload]
     ∧ payload
       = kwargs ∪ {[ "name" := name; "type" := type; "frequency" := frequency;
                     "locations" := locations; "status" := status ]}
     ∧ (∀ k v, kwargs !! k = Some v → payload !! k = Some v)
     ∧ payload !! "name" = Some name
     ∧ payload !! "type" = Some type
     ∧ payload !! "frequency" = Some frequency
     ∧ payload !! "locations" = Some locations
     ∧ payload !! "status" = Some status)
  ∧ (binds Monitors.update_parameters kwargs = true →
     ∃ payload : gmap string PyVal,
       data <$> requests
         (Monitors.update self id name type frequency locations status kwargs) w
         = [Some payload]
       ∧ payload
         = kwargs ∪ {[ "name" := name; "type" := type;
                       "frequency" := frequency;
                       "locations" := locations; "status" := status ]}
       ∧ (∀ k v, kwargs !! k = Some v → payload !! k = Some v)
       ∧ payload !! "name" = Some name
       ∧ payload !! "type" = Some type
       ∧ payload !! "frequency" = Some frequency
       ∧ payload !! "locations" = Some locations
       ∧ payload !! "status" = Some status)
  ∧ (∀ k : string,
       k ∈ ["name"; "type"; "frequency"; "locations"; "status"] →
       is_Some (kwargs !! k) →
       requests (Monitors.create self name type frequency locations status
                                 kwargs) w = []
       ∧ result (Monitors.create self name type frequency locations status
                                 kwargs) w = Raises TypeError
       ∧ requests (Monitors.update self id name type frequency locations
                                   status kwargs) w = []
       ∧ result (Monitors.update self id name type frequency locations
                                 status kwargs) w = Raises TypeError).
Proof.
  split_and!.
  - intros Hb.
    destruct (create_run name type frequency locations status kwargs w Hb)
      as (out & Hcreate & _).
    unfold requests. rewrite Hcreate. eexists. split; [done|].
    apply bound_payload. intros k Hk.
    apply (binds_lookup _ _ _ Hb), required_are_parameters, Hk.
  - intros Hb.
    destruct (update_run id name type frequency locations status kwargs w Hb)
      as (out & Hupdate).
    unfold requests. rewrite Hupdate. eexists. split; [done|].
    apply bound_payload. intros k Hk.
    apply (binds_lookup _ _ _ Hb), required_are_parameters, Hk.
  - intros k Hk Hgiven.
    destruct (create_refused name type frequency locations status kwargs w)
      as (Hsent & Hraised).
    { apply (binds_refuses _ _ k); [|done].
      by apply required_are_parameters. }
    destruct (update_refused id name type frequency locations status kwargs w)
      as (Hsent' & Hraised').
    { apply (binds_refuses _ _ k); [|done].
      by apply required_are_parameters. }
    done.
Qed.


(** [update_script] makes exactly one exchange, a PUT to the [script]
    sub-path of the monitor. *)
Lemma update_script_run (id : string) (scriptText scriptLocations : PyVal)
    (w : World S) :
  ∃ out,
    issued (Monitors.update_script self id scriptText scriptLocations) w
      = [(mkRequest PUT (URL self +:+ "monitors/" +:+ id +:+ "/script")
            (headers self) None
            (Some (if is_not_None scriptLocations
                   then setitem "scriptLocations" scriptLocations
                          (setitem "scriptText" scriptText ∅)
                   else setitem "scriptText" scriptText ∅)),
          out)].
Proof.
  unfold Monitors.update_script, _put.
  destruct (flagged_run
    (mkRequest PUT (URL self +:+ "monitors/" +:+ id +:+ "/script")
       (headers self) None
       (Some (if is_not_None scriptLocations
              then setitem "scriptLocations" scriptLocations
                     (setitem "scriptText" scriptText ∅)
              else setitem "scriptText" scriptText ∅))) w)
    as (out & Hissued & _).
  by exists out.
Qed.

(** C5.  Without [scriptLocations] the body that [update_script] sends
    has the single key [scriptText]; with [scriptLocations] it has the
    two keys [scriptText] and [scriptLocations], the latter bound to the
    caller's value as it was given. *)
Theorem update_script_body (id : string) (scriptText : PyVal) (w : World S) :
  (∃ body : gmap string PyVal,
     data <$> requests (Monitors.update_script self id scriptText VNone) w
       = [Some body]
     ∧ dom body = {[ "scriptText" ]}
     ∧ body !! "scriptText" = Some scriptText)
  ∧ ∀ scriptLocations : PyVal,
      scriptLocations ≠ VNone →
      ∃ body : gmap string PyVal,
        data <$> requests
          (Monitors.update_script self id scriptText scriptLocations) w
          = [Some body]
        ∧ dom body = {[ "scriptText"; "scriptLocations" ]}
        ∧ body !! "scriptText" = Some scriptText
        ∧ body !! "scriptLocations" = Some scriptLocations.
Proof.
  split.
  - destruct (update_script_run id scriptText VNone w) as (out & Hissued).
    unfold requests. rewrite Hissued. simpl. unfold setitem.
    eexists. split; [done|]. split.
    + rewrite dom_insert_L, dom_empty_L. set_solver.
    + by rewrite lookup_insert_eq.
  - intros scriptLocations Hgiven.
    destruct (update_script_run id scriptText scriptLocations w)
      as (out & Hissued).
    unfold requests. rewrite Hissued. simpl. unfold setitem.
    assert (is_not_None scriptLocations = true) as ->
      by by destruct scriptLocations.
    eexists. split; [done|]. split_and!.
    + rewrite !dom_insert_L, dom_empty_L. set_solver.
    + by rewrite lookup_insert_ne, lookup_insert_eq.
    + by rewrite lookup_insert_eq.
Qed.

(** [delete] makes exactly one exchange, a DELETE on the monitor's own
    path. *)
Lemma delete_run (id : string) (w : World S) :
  ∃ out,
    issued (Monitors.delete self id) w
      = [(mkRequest DELETE (URL self +:+ "monitors/" +:+ id) (headers self)
            None None, out)].
Proof.
  unfold Monitors.delete, _delete.
  destruct (flagged_run
    (mkRequest DELETE (URL self +:+ "monitors/" +:+ id) (headers self)
       None None) w) as (out & Hissued & _).
  by exists out.
Qed.

(** C7.  [show] issues one GET and [delete] one DELETE, both on the URL
    made of the base URL, [monitors/] and the ID exactly as it was
    given; with a base URL that ends in [/] this URL ends in
    [/monitors/] followed by the ID. *)
Theorem show_delete_target_literal_id (id : string) (w : World S) :
  (∃ req,
     requests (Monitors.show self id) w = [req]
     ∧ method req = GET
     ∧ url req = URL self +:+ "monitors/" +:+ id
     ∧ ∀ root, URL self = root +:+ "/" →
               url req = root +:+ "/monitors/" +:+ id)
  ∧ (∃ req,
       requests (Monitors.delete self id) w = [req]
       ∧ method req = DELETE
       ∧ url req = URL self +:+ "monitors/" +:+ id
       ∧ ∀ root, URL self = root +:+ "/" →
                 url req = root +:+ "/monitors/" +:+ id).
Proof.
  split.
  - destruct (_get_run (URL self +:+ "monitors/" +:+ id) (headers self) None w)
      as (out & Hissued & _).
    eexists. unfold requests, Monitors.show. rewrite Hissued.
    split_and!; [done|done|done|].
    intros root ->. simpl. by rewrite append_assoc.
  - destruct (delete_run id w) as (out & Hissued).
    eexists. unfold requests. rewrite Hissued.
    split_and!; [done|done|done|].
    intros root ->. simpl. by rewrite append_assoc.
Qed.

(** C4.  For a positive [page], [list] issues one GET on the collection
    whose query string is [page=] followed by the decimal numeral of
    [page], and nothing else; without [page] the query string is empty. *)
Theorem list_page_query (w : World S) :
  (∀ n : Z, (0 < n)%Z →
     requests (Monitors.list_ self (Some n)) w
     = [mkRequest GET (URL self +:+ "monitors") (headers self)
          (Some ("page=" +:+ format_int n)) None])
  ∧ requests (Monitors.list_ self None) w
    = [mkRequest GET (URL self +:+ "monitors") (headers self)
         (Some EmptyString) None].
Proof.
  split.
  - intros n Hn. unfold Monitors.list_. rewrite (truthy_positive n Hn).
    destruct (_get_run (URL self +:+ "monitors") (headers self)
      (Some (build_param_string [Some ("page=" +:+ Monitors.format_page (Some n))])) w)
      as (out & Hissued & _).
    unfold requests. rewrite Hissued. simpl.
    unfold build_param_string. simpl. done.
  - unfold Monitors.list_. simpl truthy. cbv iota.
    destruct (_get_run (URL self +:+ "monitors") (headers self)
      (Some (build_param_string [None])) w) as (out & Hissued & _).
    unfold requests. by rewrite Hissued.
Qed.

(** C9.  [list] called with page [0] is [list] called without a page:
    the same request, with an empty query string, and the same result. *)
Theorem list_page_zero_is_no_page (w : World S) :
  Monitors.list_ self (Some 0%Z) w = Monitors.list_ self None w
  ∧ requests (Monitors.list_ self (Some 0%Z)) w
    = [mkRequest GET (URL self +:+ "monitors") (headers self)
         (Some EmptyString) None].
Proof.
  split; [reflexivity|].
  change (Monitors.list_ self (Some 0%Z)) with (Monitors.list_ self None).
  destruct (_get_run (URL self +:+ "monitors") (headers self)
    (Some (build_param_string [None])) w) as (out & Hissued & _).
  unfold requests, Monitors.list_. simpl truthy. cbv iota.
  by rewrite Hissued.
Qed.

(** A read made of one [_get]: when its exchange is answered by [r], it
    ends as [_get] ends on [r]. *)
Lemma read_answer url hdrs params (w : World S) (req : Request) (r : Response) :
  issued (_get url hdrs params) w = [(req, Answer r)] →
  result (_get url hdrs params) w = get_result (Answer r).
Proof.
  destruct (_get_run url hdrs params w) as (out & -> & ->).
  by intros [= _ ->].
Qed.

(** C6.  On a response [r] whose status is not a 2xx code, the transport
    signals [ServerError] with the status and body of [r]; [update],
    [update_script] and [delete] return [False] and do not raise, while
    [list], [show] and [show_locations] raise that very signal. *)
Theorem non_2xx_writes_false_reads_raise (id : string)
    (name type frequency locations status : PyVal)
    (kwargs : gmap string PyVal)
    (scriptText scriptLocations : PyVal) (page : option Z)
    (w : World S) (r : Response) :
  ¬ (200 ≤ status_code r < 300)%Z →
  (∀ req,
     issued (Monitors.update self id name type frequency locations status
                             kwargs) w = [(req, Answer r)] →
     result (Monitors.update self id name type frequency locations status
                             kwargs) w = Returns false)
  ∧ (∀ req,
       issued (Monitors.update_script self id scriptText scriptLocations) w
         = [(req, Answer r)] →
       result (Monitors.update_script self id scriptText scriptLocations) w
         = Returns false)
  ∧ (∀ req,
       issued (Monitors.delete self id) w = [(req, Answer r)] →
       result (Monitors.delete self id) w = Returns false)
  ∧ get_result (Answer r) = Raises (ServerError (status_code r) (text r))
  ∧ (∀ req,
       issued (Monitors.list_ self page) w = [(req, Answer r)] →
       result (Monitors.list_ self page) w
         = Raises (ServerError (status_code r) (text r)))
  ∧ (∀ req,
       issued (Monitors.show self id) w = [(req, Answer r)] →
       result (Monitors.show self id) w
         = Raises (ServerError (status_code r) (text r)))
  ∧ (∀ req,
       issued (Monitors.show_locations self) w = [(req, Answer r)] →
       result (Monitors.show_locations self) w
         = Raises (ServerError (status_code r) (text r))).
Proof.
  intros Hcode.
  assert (get_result (Answer r)
          = Raises (ServerError (status_code r) (text r))) as Hsignal.
  { simpl. by rewrite (ok_not_2xx r Hcode). }
  split_and!.
  - unfold Monitors.update, _put. intros req Hissued. pass_guard Hissued.
    apply flagged_answer in Hissued. by rewrite Hissued, ok_not_2xx.
  - unfold Monitors.update_script, _put. intros req Hissued.
    apply flagged_answer in Hissued. by rewrite Hissued, ok_not_2xx.
  - unfold Monitors.delete, _delete. intros req Hissued.
    apply flagged_answer in Hissued. by rewrite Hissued, ok_not_2xx.
  - exact Hsignal.
  - unfold Monitors.list_. intros req Hissued.
    apply read_answer in Hissued. by rewrite Hissued.
  - unfold Monitors.show. intros req Hissued.
    apply read_answer in Hissued. by rewrite Hissued.
  - unfold Monitors.show_locations. intros req Hissued.
    apply read_answer in Hissued. by rewrite Hissued.
Qed.

End MethodFacts.

(* ===================================================================== *)
(** ** The properties at sample inputs *)
(* ===================================================================== *)

Section Samples.
Import Python Http Base Sample.

Lemma update_true_iff_2xx_witness :
  result (Monitors.update client "abc-123" name type frequency locations
                          status extra) (fresh [Answer no_content])
    = Returns true
  ∧ result (Monitors.update client "abc-123" name type frequency locations
                            status extra) (fresh [Answer not_found])
    = Returns false.
Proof.
  split.
  - refine (proj1 (update_true_iff_2xx client "abc-123" name type frequency
                     locations status extra (fresh [Answer no_content])
                     _ no_content _) _); [reflexivity | simpl; lia].
  - refine (proj2 (update_true_iff_2xx client "abc-123" name type frequency
                     locations status extra (fresh [Answer not_found])
                     _ not_found _) _); [reflexivity | simpl; lia].
Defined.

Lemma create_returns_trailing_segment_witness :
  ∃ segment,
    result (Monitors.create client name type frequency locations status extra)
           (fresh [Answer created]) = Returns segment
    ∧ occurs "/" segment = false
    ∧ ((∃ before,
          "https://synthetics.newrelic.com/synthetics/api/v3/monitors/abc-123"
          = before +:+ "/" +:+ segment)
       ∨ (occurs "/"
            "https://synthetics.newrelic.com/synthetics/api/v3/monitors/abc-123"
          = false
          ∧ segment
            = "https://synthetics.newrelic.com/synthetics/api/v3/monitors/abc-123")).
Proof.
  eapply (create_returns_trailing_segment client name type frequency
            locations status extra (fresh [Answer created]) _ created);
    reflexivity.
Defined.

Lemma create_without_location_raises_witness :
  result (Monitors.create client name type frequency locations status extra)
         (fresh [Answer listing])
  = Raises (KeyError "Location").
Proof.
  eapply (create_without_location_raises client name type frequency
            locations status extra (fresh [Answer listing]) _ listing);
    reflexivity.
Defined.

Lemma list_page_query_witness :
  requests (Monitors.list_ client (Some 2%Z)) (fresh [Answer listing])
  = [mkRequest GET
       "https://synthetics.newrelic.com/synthetics/api/v3/monitors"
       {[ "X-Api-Key" := "secret" ]} (Some "page=2") None].
Proof.
  apply (proj1 (list_page_query client (fresh [Answer listing])) 2%Z).
  lia.
Defined.

Lemma update_script_body_witness :
  ∃ body : gmap string PyVal,
    data <$> requests
      (Monitors.update_script client "abc-123" (VStr "Y29uc29sZS5sb2coMSk=")
         (VList [VDict {[ "name" := VStr "my_private_location";
                          "hmac" := VStr "MjhiNGE4MjVlMDE1N2M4NDQ4MjNjNDFkZDEyYTRjMmUzZDE3NGJlNjU0MWFmOTJlMzNiODExOGU2ZjhkZTY4ZQ==" ]}]))
      (fresh [Answer no_content])
      = [Some body]
    ∧ dom body = {[ "scriptText"; "scriptLocations" ]}
    ∧ body !! "scriptText" = Some (VStr "Y29uc29sZS5sb2coMSk=")
    ∧ body !! "scriptLocations"
      = Some (VList [VDict {[ "name" := VStr "my_private_location";
                              "hmac" := VStr "MjhiNGE4MjVlMDE1N2M4NDQ4MjNjNDFkZDEyYTRjMmUzZDE3NGJlNjU0MWFmOTJlMzNiODExOGU2ZjhkZTY4ZQ==" ]}]).
Proof.
  apply (proj2 (update_script_body client "abc-123"
                  (VStr "Y29uc29sZS5sb2coMSk=") (fresh [Answer no_content]))).
  discriminate.
Defined.

Lemma show_delete_target_literal_id_witness :
  (∃ req,
     requests (Monitors.show client "abc-123") (fresh [Answer listing]) = [req]
     ∧ url req
       = "https://synthetics.newrelic.com/synthetics/api/v3"
           +:+ "/monitors/" +:+ "abc-123")
  ∧ (∃ req,
       requests (Monitors.delete client "abc-123") (fresh [Answer no_content])
         = [req]
       ∧ url req
         = "https://synthetics.newrelic.com/synthetics/api/v3"
             +:+ "/monitors/" +:+ "abc-123").
Proof.
  split.
  - destruct (proj1 (show_delete_target_literal_id client "abc-123"
                       (fresh [Answer listing])))
      as (req & Hreq & _ & _ & Hroot).
    exists req. split; [exact Hreq|].
    apply (Hroot "https://synthetics.newrelic.com/synthetics/api/v3").
    reflexivity.
  - destruct (proj2 (show_delete_target_literal_id client "abc-123"
                       (fresh [Answer no_content])))
      as (req & Hreq & _ & _ & Hroot).
    exists req. split; [exact Hreq|].
    apply (Hroot "https://synthetics.newrelic.com/synthetics/api/v3").
    reflexivity.
Defined.

Lemma non_2xx_writes_false_reads_raise_witness :
  result (Monitors.update client "abc-123" name type frequency locations
                          status extra) (fresh [Answer server_error])
    = Returns false
  ∧ result (Monitors.update_script client "abc-123"
              (VStr "Y29uc29sZS5sb2coMSk=") VNone) (fresh [Answer server_error])
    = Returns false
  ∧ result (Monitors.delete client "abc-123") (fresh [Answer server_error])
    = Returns false
  ∧ result (Monitors.list_ client (Some 2%Z)) (fresh [Answer server_error])
    = Raises (ServerError 500 "Internal Server Error")
  ∧ result (Monitors.show client "abc-123") (fresh [Answer server_error])
    = Raises (ServerError 500 "Internal Server Error")
  ∧ result (Monitors.show_locations client) (fresh [Answer server_error])
    = Raises (ServerError 500 "Internal Server Error").
Proof.
  assert (¬ (200 ≤ status_code server_error < 300)%Z) as Hcode
    by (simpl; lia).
  destruct (non_2xx_writes_false_reads_raise client "abc-123" name type
              frequency locations status extra
              (VStr "Y29uc29sZS5sb2coMSk=") VNone (Some 2%Z)
              (fresh [Answer server_error]) server_error Hcode)
    as (Hupdate & Hscript & Hdelete & _ & Hlist & Hshow & Hlocations).
  split_and!.
  - eapply Hupdate. reflexivity.
  - eapply Hscript. reflexivity.
  - eapply Hdelete. reflexivity.
  - eapply Hlist. reflexivity.
  - eapply Hshow. reflexivity.
  - eapply Hlocations. reflexivity.
Defined.

(** The example of the trailing segment: the ID is [abc-123]. *)
Example create_returns_abc_123 :
  result (Monitors.create client name type frequency locations status extra)
         (fresh [Answer created])
  = Returns "abc-123".
Proof. reflexivity. Qed.

(** The required fields keep the values of their parameters and the
    extra fields are added. *)
Example create_payload_fields :
  (λ req : Request,
     match data req with
     | Some payload =>
         [payload !! "name"; payload !! "type"; payload !! "uri";
          payload !! "slaThreshold"; payload !! "id"]
     | None => []
     end)
    <$> requests
          (Monitors.create client name type frequency locations status extra)
          (fresh [Answer created])
  = [[Some (VStr "ping"); Some (VStr "SIMPLE");
      Some (VStr "http://example.com"); Some (VInt 7); None]].
Proof. vm_compute. reflexivity. Qed.

Lemma payload_is_required_plus_extra_witness :
  (∃ payload : gmap string PyVal,
     data <$> requests
       (Monitors.create client name type frequency locations status extra)
       (fresh [Answer created])
       = [Some payload]
     ∧ payload
       = extra ∪ {[ "name" := name; "type" := type; "frequency" := frequency;
                    "locations" := locations; "status" := status ]}
     ∧ (∀ k v, extra !! k = Some v → payload !! k = Some v)
     ∧ payload !! "name" = Some name
     ∧ payload !! "type" = Some type
     ∧ payload !! "frequency" = Some frequency
     ∧ payload !! "locations" = Some locations
     ∧ payload !! "status" = Some status)
  ∧ requests (Monitors.create client name type frequency locations status
                              colliding) (fresh [Answer created]) = []
  ∧ result (Monitors.create client name type frequency locations status
                            colliding) (fresh [Answer created])
    = Raises TypeError
  ∧ requests (Monitors.update client "abc-123" name type frequency locations
                              status colliding) (fresh [Answer created]) = []
  ∧ result (Monitors.update client "abc-123" name type frequency locations
                            status colliding) (fresh [Answer created])
    = Raises TypeError.
Proof.
  split.
  - apply (proj1 (payload_is_required_plus_extra client "abc-123" name type
                    frequency locations status extra
                    (fresh [Answer created]))).
    reflexivity.
  - apply (proj2 (proj2 (payload_is_required_plus_extra client "abc-123" name
                           type frequency locations status colliding
                           (fresh [Answer created]))) "name").
    + by repeat constructor.
    + eexists. reflexivity.
Defined.

(** A keyword named like the required field [name] does not win over
    the parameter: the call raises [TypeError] and no payload is sent. *)
Lemma extra_field_wins_counterexample :
  requests (Monitors.create client name type frequency locations status
                            colliding) (fresh [Answer created]) = []
  ∧ result (Monitors.create client name type frequency locations status
                            colliding) (fresh [Answer created])
    = Raises TypeError
  ∧ ¬ ∃ payload : gmap string PyVal,
        data <$> requests
          (Monitors.create client name type frequency locations status
                           colliding) (fresh [Answer created])
          = [Some payload]
        ∧ payload !! "name" = colliding !! "name".
Proof.
  split; [reflexivity|]. split; [reflexivity|].
  intros (payload & Hsent & _). discriminate Hsent.
Qed.



(** A read returns the decoded body of a 2xx answer as it is. *)
Example list_returns_body :
  result (Monitors.list_ client (Some 2%Z)) (fresh [Answer listing])
  = Returns (VDict {[ "monitors" := VList [] ]}).
Proof. reflexivity. Qed.

(** A failure below HTTP propagates from a write method too. *)
Example delete_transport_failure :
  result (Monitors.delete client "abc-123") (fresh [NoAnswer "timed out"])
  = Raises (TransportError "timed out").
Proof. reflexivity. Qed.

Example rsplit1_two_slashes :
  rsplit1 "/" "a/b/c" = ["a/b"; "c"].
Proof. reflexivity. Qed.

Example rsplit1_no_slash :
  rsplit1 "/" "abc" = ["abc"].
Proof. reflexivity. Qed.

Example rsplit1_trailing_slash :
  rsplit1 "/" "a/b/" = ["a/b"; EmptyString].
Proof. reflexivity. Qed.

Example format_int_examples :
  format_int 2 = "2" ∧ format_int 120 = "120" ∧ format_int (-7) = "-7".
Proof. repeat split; reflexivity. Qed.

Example build_param_string_examples :
  build_param_string [Some "page=2"] = "page=2"
  ∧ build_param_string [None] = EmptyString
  ∧ build_param_string [Some "a=1"; None; Some "b=2"] = "a=1&b=2".
Proof. repeat split; reflexivity. Qed.

End Samples.

(* ===================================================================== *)
(** ** Further facts about the built-ins *)
(* ===================================================================== *)

Section MoreBuiltinFacts.
Import Python.

Lemma append_cons (a : Ascii.ascii) (s t : string) :
  String a s +:+ t = String a (s +:+ t).
Proof. reflexivity. Qed.

Lemma length_append (s t : string) :
  String.length (s +:+ t) = (String.length s + String.length t)%nat.
Proof.
  induction s as [|a s IH]; [done|].
  rewrite append_cons. simpl. by rewrite IH.
Qed.

(** A common suffix can be cancelled. *)
Lemma append_inj_r (s1 s2 t : string) : s1 +:+ t = s2 +:+ t → s1 = s2.
Proof.
  revert s2. induction s1 as [|a s1 IH]; intros [|b s2] Heq.
  - done.
  - apply (f_equal String.length) in Heq.
    rewrite !length_append in Heq. simpl in Heq. lia.
  - apply (f_equal String.length) in Heq.
    rewrite !length_append in Heq. simpl in Heq. lia.
  - rewrite !append_cons in Heq. injection Heq as -> Heq.
    by rewrite (IH s2 Heq).
Qed.

Lemma occurs_rpartition_None sep s :
  occurs sep s = false → rpartition sep s = None.
Proof.
  induction s as [|a rest IH]; simpl; [done|].
  case_decide; [done|]. intros Hrest. by rewrite (IH Hrest).
Qed.

(** Splitting finds the separator that is followed by no other one. *)
Lemma rpartition_app sep before segment :
  occurs sep segment = false →
  rpartition sep (before +:+ String sep segment) = Some (before, segment).
Proof.
  intros Hfree. induction before as [|a before IH].
  - change (EmptyString +:+ String sep segment) with (String sep segment).
    simpl. rewrite (occurs_rpartition_None _ _ Hfree).
    by rewrite decide_True.
  - rewrite append_cons. simpl. by rewrite IH.
Qed.

Lemma rsplit1_last_app sep before segment :
  occurs sep segment = false →
  item_last (rsplit1 sep (before +:+ String sep segment)) = Some segment.
Proof.
  intros Hfree. unfold rsplit1. by rewrite (rpartition_app _ _ _ Hfree).
Qed.

Lemma format_int_inj (n m : Z) : format_int n = format_int m → n = m.
Proof. apply pretty_Z_inj. Qed.

End MoreBuiltinFacts.

(* ===================================================================== *)
(** ** Further properties of the methods *)
(* ===================================================================== *)

Section MoreMethodFacts.
Import Python Http Base.
Context {S : Type} `{Remote S}.
Variable self : Synthetics.

(** What [create] makes of an answer that carries a [Location] header. *)
Lemma create_answer (name type frequency locations status : PyVal)
    (kwargs : gmap string PyVal) (w : World S)
    (req : Request) (r : Response) :
  issued (Monitors.create self name type frequency locations status kwargs) w
    = [(req, Answer r)] →
  result (Monitors.create self name type frequency locations status kwargs) w
  = match resp_headers r !! "Location" with
    | None => Raises (KeyError "Location")
    | Some location =>
        match item_last (rsplit1 "/" location) with
        | None => Raises IndexError
        | Some segment => Returns segment
        end
    end.
Proof. apply create_answered. Qed.

(** [create] on a [Location] value that reads [before/segment]. *)
Lemma create_answer_segment
    (name type frequency locations status : PyVal)
    (kwargs : gmap string PyVal) (w : World S)
    (req : Request) (r : Response) (before segment : string) :
  issued (Monitors.create self name type frequency locations status kwargs) w
    = [(req, Answer r)] →
  resp_headers r !! "Location" = Some (before +:+ "/" +:+ segment) →
  occurs "/" segment = false →
  result (Monitors.create self name type frequency locations status kwargs) w
  = Returns segment.
Proof.
  intros Hissued Hlocation Hfree.
  rewrite (create_answer _ _ _ _ _ _ _ _ _ Hissued), Hlocation.
  change (before +:+ "/" +:+ segment) with (before +:+ String "/" segment).
  by rewrite (rsplit1_last_app _ _ _ Hfree).
Qed.

(** X1.  Whenever the [Location] value reads [before/segment] with no [/]
    in [segment], [create] returns [segment]: nothing of [before], however
    many [/] it holds, reaches the result. *)
Theorem create_returns_what_follows_last_slash
    (name type frequency locations status : PyVal)
    (kwargs : gmap string PyVal) (w : World S)
    (req : Request) (r : Response) (before segment : string) :
  issued (Monitors.create self name type frequency locations status kwargs) w
    = [(req, Answer r)] →
  resp_headers r !! "Location" = Some (before +:+ "/" +:+ segment) →
  occurs "/" segment = false →
  result (Monitors.create self name type frequency locations status kwargs) w
  = Returns segment.
Proof. apply create_answer_segment. Qed.

(** X2.  [create] returns the empty string, an ID that names no monitor,
    exactly when the [Location] value is empty or ends in [/]. *)
Theorem create_returns_empty_iff
    (name type frequency locations status : PyVal)
    (kwargs : gmap string PyVal) (w : World S)
    (req : Request) (r : Response) (location : string) :
  issued (Monitors.create self name type frequency locations status kwargs) w
    = [(req, Answer r)] →
  resp_headers r !! "Location" = Some location →
  result (Monitors.create self name type frequency locations status kwargs) w
    = Returns EmptyString
  ↔ (location = EmptyString ∨ ∃ before, location = before +:+ "/").
Proof.
  intros Hissued Hlocation.
  rewrite (create_answer _ _ _ _ _ _ _ _ _ Hissued), Hlocation.
  split.
  - destruct (rsplit1_last "/" location)
      as (segment & -> & _ & [[before ->] | [_ <-]]).
    + intros [= ->]. right. by exists before.
    + intros [= ->]. by left.
  - intros [-> | [before ->]]; [done|].
    change (before +:+ "/") with (before +:+ String "/" EmptyString).
    by rewrite rsplit1_last_app.
Qed.

(** X3.  [create] reads nothing of the answer but its [Location] header:
    two calls, whatever their arguments and worlds, whose answers agree on
    that header end alike, whatever the status codes and bodies. *)
Theorem create_reads_only_location
    (name type frequency locations status : PyVal)
    (kwargs : gmap string PyVal)
    (name' type' frequency' locations' status' : PyVal)
    (kwargs' : gmap string PyVal) (w w' : World S)
    (req req' : Request) (r r' : Response) :
  issued (Monitors.create self name type frequency locations status kwargs) w
    = [(req, Answer r)] →
  issued (Monitors.create self name' type' frequency' locations' status'
                          kwargs') w'
    = [(req', Answer r')] →
  resp_headers r !! "Location" = resp_headers r' !! "Location" →
  result (Monitors.create self name type frequency locations status kwargs) w
  = result (Monitors.create self name' type' frequency' locations' status'
                            kwargs') w'.
Proof.
  intros Hissued Hissued' Hsame.
  rewrite (create_answer _ _ _ _ _ _ _ _ _ Hissued).
  rewrite (create_answer _ _ _ _ _ _ _ _ _ Hissued').
  by rewrite Hsame.
Qed.

(** X4.  Round trip of an ID: when the remote end answers a creation with
    the URL under which [show], [update] and [delete] address a monitor
    whose ID holds no [/], [create] returns that ID, and [show] and
    [delete] called with what [create] returned address the URL of the
    [Location] header. *)
Theorem create_then_show_addresses_location
    (name type frequency locations status : PyVal)
    (kwargs : gmap string PyVal) (w w1 w2 : World S)
    (req : Request) (r : Response) (id : string) :
  issued (Monitors.create self name type frequency locations status kwargs) w
    = [(req, Answer r)] →
  resp_headers r !! "Location" = Some (URL self +:+ "monitors/" +:+ id) →
  occurs "/" id = false →
  ∃ returned,
    result (Monitors.create self name type frequency locations status kwargs) w
      = Returns returned
    ∧ returned = id
    ∧ Some <$> (url <$> requests (Monitors.show self returned) w1)
      = [resp_headers r !! "Location"]
    ∧ Some <$> (url <$> requests (Monitors.delete self returned) w2)
      = [resp_headers r !! "Location"].
Proof.
  intros Hissued Hlocation Hfree.
  exists id. split_and!.
  - apply (create_answer_segment _ _ _ _ _ _ _ _ _
             (URL self +:+ "monitors") id Hissued); [|done].
    rewrite Hlocation. f_equal.
    change ("monitors/" +:+ id) with ("monitors" +:+ ("/" +:+ id)).
    by rewrite append_assoc.
  - done.
  - destruct (_get_run (URL self +:+ "monitors/" +:+ id) (headers self) None w1)
      as (out & Hshow & _).
    unfold requests, Monitors.show. by rewrite Hshow, Hlocation.
  - destruct (delete_run self id w2) as (out & Hdelete).
    unfold requests. by rewrite Hdelete, Hlocation.
Qed.


(** X6.  No method handles a failure below HTTP: when the one exchange of
    a call gets no answer, each of the seven methods raises the transport
    error; the boolean methods do not turn it into [False]. *)
Theorem no_answer_propagates (id : string)
    (name type frequency locations status : PyVal)
    (kwargs : gmap string PyVal) (scriptText scriptLocations : PyVal)
    (page : option Z) (w : World S) (reason : string) :
  (∀ req, issued (Monitors.list_ self page) w = [(req, NoAnswer reason)] →
          result (Monitors.list_ self page) w = Raises (TransportError reason))
  ∧ (∀ req, issued (Monitors.show self id) w = [(req, NoAnswer reason)] →
            result (Monitors.show self id) w = Raises (TransportError reason))
  ∧ (∀ req, issued (Monitors.show_locations self) w
              = [(req, NoAnswer reason)] →
            result (Monitors.show_locations self) w
              = Raises (TransportError reason))
  ∧ (∀ req, issued (Monitors.create self name type frequency locations
                                    status kwargs) w
              = [(req, NoAnswer reason)] →
            result (Monitors.create self name type frequency locations
                                    status kwargs) w
              = Raises (TransportError reason))
  ∧ (∀ req, issued (Monitors.update self id name type frequency locations
                                    status kwargs) w
              = [(req, NoAnswer reason)] →
            result (Monitors.update self id name type frequency locations
                                    status kwargs) w
              = Raises (TransportError reason))
  ∧ (∀ req, issued (Monitors.update_script self id scriptText
                                           scriptLocations) w
              = [(req, NoAnswer reason)] →
            result (Monitors.update_script self id scriptText
                                           scriptLocations) w
              = Raises (TransportError reason))
  ∧ (∀ req, issued (Monitors.delete self id) w = [(req, NoAnswer reason)] →
            result (Monitors.delete self id) w
              = Raises (TransportError reason)).
Proof.
  assert (∀ url hdrs params req,
    issued (_get url hdrs params) w = [(req, NoAnswer reason)] →
    result (_get url hdrs params) w = Raises (TransportError reason))
    as Hread.
  { intros url hdrs params req.
    destruct (_get_run url hdrs params w) as (out & -> & ->).
    by intros [= _ ->]. }
  assert (∀ req0 req,
    issued (raw req0 ≫= λ response,
              if ok response then ret true else ret false) w
      = [(req, NoAnswer reason)] →
    result (raw req0 ≫= λ response,
              if ok response then ret true else ret false) w
      = Raises (TransportError reason))
    as Hwrite.
  { intros req0 req.
    destruct (flagged_run req0 w) as (out & -> & ->).
    by intros [= _ ->]. }
  split_and!.
  - unfold Monitors.list_. apply Hread.
  - unfold Monitors.show. apply Hread.
  - unfold Monitors.show_locations. apply Hread.
  - intros req Hissued.
    destruct (create_run self name type frequency locations status kwargs w
                (create_bound self _ _ _ _ _ _ _ _ Hissued))
      as (out & Hrun & ->).
    rewrite Hrun in Hissued. by injection Hissued as _ ->.
  - unfold Monitors.update, _put. intros req Hissued. pass_guard Hissued.
    by apply (Hwrite _ req).
  - unfold Monitors.update_script, _put. apply Hwrite.
  - unfold Monitors.delete, _delete. apply Hwrite.
Qed.

(** The request of each method, whatever the world and the outcome. *)
Lemma list_requests (page : option Z) (w : World S) :
  requests (Monitors.list_ self page) w
  = [mkRequest GET (URL self +:+ "monitors") (headers self)
       (Some (build_param_string
                [ if truthy page
                  then Some ("page=" +:+ Monitors.format_page page)
                  else None ]))
       None].
Proof.
  unfold Monitors.list_, requests.
  destruct (_get_run (URL self +:+ "monitors") (headers self)
    (Some (build_param_string
             [ if truthy page
               then Some ("page=" +:+ Monitors.format_page page)
               else None ])) w) as (out & -> & _).
  done.
Qed.

Lemma show_requests (id : string) (w : World S) :
  requests (Monitors.show self id) w
  = [mkRequest GET (URL self +:+ "monitors/" +:+ id) (headers self) None None].
Proof.
  unfold Monitors.show, requests.
  destruct (_get_run (URL self +:+ "monitors/" +:+ id) (headers self) None w)
    as (out & -> & _).
  done.
Qed.


Lemma create_requests (name type frequency locations status : PyVal)
    (kwargs : gmap string PyVal) (w : World S) :
  binds Monitors.create_parameters kwargs = true →
  requests (Monitors.create self name type frequency locations status kwargs) w
  = [mkRequest POST (URL self +:+ "monitors") (headers self) None
       (Some (dict_update
                (Monitors.required_fields name type frequency locations status)
                kwargs))].
Proof.
  intros Hb. unfold requests.
  destruct (create_run self name type frequency locations status kwargs w Hb)
    as (out & -> & _).
  done.
Qed.

Lemma update_requests (id : string)
    (name type frequency locations status : PyVal)
    (kwargs : gmap string PyVal) (w : World S) :
  binds Monitors.update_parameters kwargs = true →
  requests (Monitors.update self id name type frequency locations status
                            kwargs) w
  = [mkRequest PUT (URL self +:+ "monitors/" +:+ id) (headers self) None
       (Some (dict_update
                (Monitors.required_fields name type frequency locations status)
                kwargs))].
Proof.
  intros Hb. unfold requests.
  destruct (update_run self id name type frequency locations status kwargs w Hb)
    as (out & ->).
  done.
Qed.

Lemma update_script_requests (id : string) (scriptText scriptLocations : PyVal)
    (w : World S) :
  requests (Monitors.update_script self id scriptText scriptLocations) w
  = [mkRequest PUT (URL self +:+ "monitors/" +:+ id +:+ "/script")
       (headers self) None
       (Some (if is_not_None scriptLocations
              then setitem "scriptLocations" scriptLocations
                     (setitem "scriptText" scriptText ∅)
              else setitem "scriptText" scriptText ∅))].
Proof.
  unfold requests.
  destruct (update_script_run self id scriptText scriptLocations w)
    as (out & ->).
  done.
Qed.

Lemma delete_requests (id : string) (w : World S) :
  requests (Monitors.delete self id) w
  = [mkRequest DELETE (URL self +:+ "monitors/" +:+ id) (headers self)
       None None].
Proof.
  unfold requests. destruct (delete_run self id w) as (out & ->). done.
Qed.


(** X8.  [show], [update] and [delete] of one ID address one and the same
    URL, and [update_script] addresses that URL followed by [/script]. *)
Theorem methods_of_one_id_share_url (id : string)
    (name type frequency locations status : PyVal)
    (kwargs : gmap string PyVal) (scriptText scriptLocations : PyVal)
    (w : World S) :
  binds Monitors.update_parameters kwargs = true →
  ∃ target : string,
    url <$> requests (Monitors.show self id) w = [target]
    ∧ url <$> requests (Monitors.update self id name type frequency locations
                                        status kwargs) w = [target]
    ∧ url <$> requests (Monitors.delete self id) w = [target]
    ∧ url <$> requests (Monitors.update_script self id scriptText
                                               scriptLocations) w
      = [target +:+ "/script"].
Proof.
  intros Hb. exists (URL self +:+ "monitors/" +:+ id).
  rewrite show_requests, (update_requests _ _ _ _ _ _ _ _ Hb),
    delete_requests, update_script_requests.
  split_and!; [done|done|done|]. simpl.
  by rewrite !append_assoc.
Qed.

(** X9.  Different IDs are addressed under different URLs: an ID is not
    altered or cut on its way into the URL, so no two monitors share the
    target of [show], [update], [delete] or [update_script]. *)
Theorem different_ids_different_urls (id1 id2 : string)
    (name type frequency locations status : PyVal)
    (kwargs : gmap string PyVal) (scriptText scriptLocations : PyVal)
    (w1 w2 : World S) :
  binds Monitors.update_parameters kwargs = true →
  id1 ≠ id2 →
  url <$> requests (Monitors.show self id1) w1
    ≠ url <$> requests (Monitors.show self id2) w2
  ∧ url <$> requests (Monitors.update self id1 name type frequency locations
                                      status kwargs) w1
    ≠ url <$> requests (Monitors.update self id2 name type frequency locations
                                        status kwargs) w2
  ∧ url <$> requests (Monitors.delete self id1) w1
    ≠ url <$> requests (Monitors.delete self id2) w2
  ∧ url <$> requests (Monitors.update_script self id1 scriptText
                                             scriptLocations) w1
    ≠ url <$> requests (Monitors.update_script self id2 scriptText
                                               scriptLocations) w2.
Proof.
  intros Hb Hne.
  rewrite !show_requests, !(update_requests _ _ _ _ _ _ _ _ Hb),
    !delete_requests, !update_script_requests. simpl.
  assert (URL self +:+ "monitors/" +:+ id1 ≠ URL self +:+ "monitors/" +:+ id2)
    as Hurl.
  { intros Heq. apply Hne.
    by apply (inj (String.append "monitors/")),
             (inj (String.append (URL self))). }
  split_and!; try (intros [= Heq]; by apply Hurl).
  intros [= Heq]. apply Hne.
  apply (inj (String.append (URL self))),
        (inj (String.append "monitors/")) in Heq.
  by apply append_inj_r in Heq.
Qed.

(** X10.  [list] always addresses the collection URL, the page travelling
    in the query string only.  The query string is empty exactly when the
    page is [None] or [0]; any other page, a negative one included, is sent
    as [page=] followed by its decimal numeral: the page is not validated. *)
Theorem list_query_string (page : option Z) (w : World S) :
  url <$> requests (Monitors.list_ self page) w = [URL self +:+ "monitors"]
  ∧ (params <$> requests (Monitors.list_ self page) w = [Some EmptyString]
     ↔ page = None ∨ page = Some 0%Z)
  ∧ ∀ n : Z, page = Some n → n ≠ 0%Z →
      params <$> requests (Monitors.list_ self page) w
      = [Some ("page=" +:+ format_int n)].
Proof.
  rewrite list_requests. split; [done|].
  destruct page as [n|]; simpl.
  - destruct (Z.eqb_spec n 0) as [->|Hn]; simpl.
    + split; [|by intros n [= <-]]. split; [by right|done].
    + split.
      * split; [|by intros [|[=]]].
        unfold build_param_string. simpl. intros Heq.
        assert ("page=" +:+ format_int n = EmptyString) as Hempty
          by congruence.
        change ("page=" +:+ format_int n)
          with (String "p" ("age=" +:+ format_int n)) in Hempty.
        discriminate Hempty.
      * by intros m [= <-] _.
  - split; [|by intros n [=]]. split; [by left|done].
Qed.

(** X11.  Two different pages give two different requests: the page
    asked for can be told from the query string. *)
Theorem different_pages_different_requests (n m : Z) (w w' : World S) :
  n ≠ 0%Z → m ≠ 0%Z → n ≠ m →
  requests (Monitors.list_ self (Some n)) w
  ≠ requests (Monitors.list_ self (Some m)) w'.
Proof.
  intros Hn Hm Hne.
  rewrite !list_requests. simpl.
  destruct (Z.eqb_spec n 0) as [|_]; [done|].
  destruct (Z.eqb_spec m 0) as [|_]; [done|].
  unfold build_param_string. simpl. intros Heq.
  assert ("page=" +:+ format_int m = "page=" +:+ format_int n) as Hsame
    by congruence.
  apply (inj (String.append "page=")), format_int_inj in Hsame.
  by apply Hne.
Qed.

(** The keys of a payload whose keyword fields avoid the five required
    names. *)
Lemma bound_payload_keys (name type frequency locations status : PyVal)
    (kwargs : gmap string PyVal) :
  (∀ k, k ∈ ["name"; "type"; "frequency"; "locations"; "status"] →
        kwargs !! k = None) →
  dom (dict_update
         (Monitors.required_fields name type frequency locations status)
         kwargs)
    = {[ "name"; "type"; "frequency"; "locations"; "status" ]} ∪ dom kwargs
  ∧ ({[ "name"; "type"; "frequency"; "locations"; "status" ]} : gset string)
      ## dom kwargs.
Proof.
  intros Hfree. split.
  - rewrite dict_update_union, dom_union_L.
    unfold Monitors.required_fields, setitem.
    rewrite !dom_insert_L, dom_empty_L.
    apply set_eq. intros k.
    rewrite !elem_of_union, !elem_of_singleton, elem_of_empty. tauto.
  - apply elem_of_disjoint. intros k Hrequired Hextra.
    apply elem_of_dom in Hextra as [v Hv].
    rewrite Hfree in Hv; [discriminate|].
    rewrite !elem_of_union, !elem_of_singleton in Hrequired.
    rewrite !elem_of_cons. tauto.
Qed.

(** X12.  In a call that binds, the keys of the payload of [create] and
    [update] are the five required names together with the names of the
    extra keyword fields, and no name is in both sets: an extra field
    neither replaces nor removes a required one.  The payload of [update]
    has no key [id]: the ID travels in the URL only. *)
Theorem payload_keys (id : string)
    (name type frequency locations status : PyVal)
    (kwargs : gmap string PyVal) (w w' : World S) :
  (binds Monitors.create_parameters kwargs = true →
   ∃ payload : gmap string PyVal,
     data <$> requests
       (Monitors.create self name type frequency locations status kwargs) w
       = [Some payload]
     ∧ dom payload
       = {[ "name"; "type"; "frequency"; "locations"; "status" ]} ∪ dom kwargs
     ∧ ({[ "name"; "type"; "frequency"; "locations"; "status" ]} : gset string)
         ## dom kwargs)
  ∧ (binds Monitors.update_parameters kwargs = true →
     ∃ payload : gmap string PyVal,
       data <$> requests
         (Monitors.update self id name type frequency locations status kwargs) w'
         = [Some payload]
       ∧ dom payload
         = {[ "name"; "type"; "frequency"; "locations"; "status" ]}
             ∪ dom kwargs
       ∧ ({[ "name"; "type"; "frequency"; "locations"; "status" ]}
            : gset string) ## dom kwargs
       ∧ payload !! "id" = None).
Proof.
  split; intros Hb.
  - rewrite (create_requests _ _ _ _ _ _ _ Hb). eexists. split; [done|].
    apply bound_payload_keys. intros k Hk.
    apply (binds_lookup _ _ _ Hb), required_are_parameters, Hk.
  - rewrite (update_requests _ _ _ _ _ _ _ _ Hb). eexists. split; [done|].
    destruct (bound_payload_keys name type frequency locations status kwargs)
      as [Hkeys Hdisjoint].
    { intros k Hk.
      apply (binds_lookup _ _ _ Hb), required_are_parameters, Hk. }
    split; [exact Hkeys|]. split; [exact Hdisjoint|].
    rewrite dict_update_union, required_fields_items.
      rewrite lookup_union_r; [by simplify_map_eq|].
    by apply binds_update_id.
Qed.

End MoreMethodFacts.

(* ===================================================================== *)
(** ** The further properties at sample inputs *)
(* ===================================================================== *)

Section MoreSamples.
Import Python Http Base Sample.

Lemma create_returns_what_follows_last_slash_witness :
  result (Monitors.create client name type frequency locations status extra)
         (fresh [Answer created])
  = Returns "abc-123".
Proof.
  eapply (create_returns_what_follows_last_slash client name type frequency
            locations status extra (fresh [Answer created]) _ created
            "https://synthetics.newrelic.com/synthetics/api/v3/monitors"
            "abc-123");
    reflexivity.
Defined.

Lemma create_returns_empty_iff_witness :
  result (Monitors.create client name type frequency locations status extra)
         (fresh [Answer created_trailing_slash])
  = Returns EmptyString.
Proof.
  refine (proj2 (create_returns_empty_iff client name type frequency
                   locations status extra
                   (fresh [Answer created_trailing_slash]) _
                   created_trailing_slash
                   "https://synthetics.newrelic.com/synthetics/api/v3/monitors/abc-123/"
                   _ _) _); [reflexivity | reflexivity |].
  right.
  exists "https://synthetics.newrelic.com/synthetics/api/v3/monitors/abc-123".
  reflexivity.
Defined.

Lemma create_reads_only_location_witness :
  result (Monitors.create client name type frequency locations status extra)
         (fresh [Answer created])
  = result (Monitors.create client (VStr "other") type (VInt 10) locations
                            (VStr "MUTED") ∅)
           (fresh [Answer accepted]).
Proof.
  eapply (create_reads_only_location client name type frequency locations
            status extra (VStr "other") type (VInt 10) locations
            (VStr "MUTED") ∅ (fresh [Answer created]) (fresh [Answer accepted])
            _ _ created accepted);
    reflexivity.
Defined.

Lemma create_then_show_addresses_location_witness :
  ∃ returned,
    result (Monitors.create client name type frequency locations status extra)
           (fresh [Answer created]) = Returns returned
    ∧ returned = "abc-123"
    ∧ Some <$> (url <$> requests (Monitors.show client returned)
                                 (fresh [Answer listing]))
      = [resp_headers created !! "Location"]
    ∧ Some <$> (url <$> requests (Monitors.delete client returned)
                                 (fresh [Answer no_content]))
      = [resp_headers created !! "Location"].
Proof.
  eapply (create_then_show_addresses_location client name type frequency
            locations status extra (fresh [Answer created])
            (fresh [Answer listing]) (fresh [Answer no_content])
            _ created "abc-123");
    reflexivity.
Defined.


Lemma no_answer_propagates_witness :
  result (Monitors.list_ client (Some 2%Z)) (fresh [NoAnswer "timed out"])
    = Raises (TransportError "timed out")
  ∧ result (Monitors.show client "abc-123") (fresh [NoAnswer "timed out"])
    = Raises (TransportError "timed out")
  ∧ result (Monitors.show_locations client) (fresh [NoAnswer "timed out"])
    = Raises (TransportError "timed out")
  ∧ result (Monitors.create client name type frequency locations status
                            extra) (fresh [NoAnswer "timed out"])
    = Raises (TransportError "timed out")
  ∧ result (Monitors.update client "abc-123" name type frequency locations
                            status extra) (fresh [NoAnswer "timed out"])
    = Raises (TransportError "timed out")
  ∧ result (Monitors.update_script client "abc-123"
              (VStr "Y29uc29sZS5sb2coMSk=") VNone)
           (fresh [NoAnswer "timed out"])
    = Raises (TransportError "timed out")
  ∧ result (Monitors.delete client "abc-123") (fresh [NoAnswer "timed out"])
    = Raises (TransportError "timed out").
Proof.
  destruct (no_answer_propagates client "abc-123" name type frequency
              locations status extra (VStr "Y29uc29sZS5sb2coMSk=") VNone
              (Some 2%Z) (fresh [NoAnswer "timed out"]) "timed out")
    as (Hlist & Hshow & Hlocations & Hcreate & Hupdate & Hscript & Hdelete).
  split_and!.
  - eapply Hlist. reflexivity.
  - eapply Hshow. reflexivity.
  - eapply Hlocations. reflexivity.
  - eapply Hcreate. reflexivity.
  - eapply Hupdate. reflexivity.
  - eapply Hscript. reflexivity.
  - eapply Hdelete. reflexivity.
Defined.

Lemma different_ids_different_urls_witness :
  url <$> requests (Monitors.show client "abc-123") (fresh [Answer listing])
    ≠ url <$> requests (Monitors.show client "abc-124")
                       (fresh [Answer listing])
  ∧ url <$> requests (Monitors.update_script client "abc-123"
                        (VStr "Y29uc29sZS5sb2coMSk=") VNone)
                     (fresh [Answer no_content])
    ≠ url <$> requests (Monitors.update_script client "abc-124"
                          (VStr "Y29uc29sZS5sb2coMSk=") VNone)
                       (fresh [Answer no_content]).
Proof.
  split.
  - apply (different_ids_different_urls client "abc-123" "abc-124" name type
             frequency locations status extra (VStr "Y29uc29sZS5sb2coMSk=")
             VNone (fresh [Answer listing]) (fresh [Answer listing]));
      [reflexivity | discriminate].
  - apply (different_ids_different_urls client "abc-123" "abc-124" name type
             frequency locations status extra (VStr "Y29uc29sZS5sb2coMSk=")
             VNone (fresh [Answer no_content]) (fresh [Answer no_content]));
      [reflexivity | discriminate].
Defined.

Lemma list_query_string_witness :
  params <$> requests (Monitors.list_ client (Some (-3)%Z))
                      (fresh [Answer listing])
  = [Some "page=-3"].
Proof.
  apply (proj2 (proj2 (list_query_string client (Some (-3)%Z)
                         (fresh [Answer listing]))) (-3)%Z);
    [reflexivity | discriminate].
Defined.

Lemma different_pages_different_requests_witness :
  requests (Monitors.list_ client (Some 2%Z)) (fresh [Answer listing])
  ≠ requests (Monitors.list_ client (Some 3%Z)) (fresh [Answer listing]).
Proof.
  apply (different_pages_different_requests client 2%Z 3%Z);
    discriminate.
Defined.


Lemma methods_of_one_id_share_url_witness :
  ∃ target : string,
    url <$> requests (Monitors.show client "abc-123")
                     (fresh [Answer no_content]) = [target]
    ∧ url <$> requests (Monitors.update client "abc-123" name type frequency
                                        locations status extra)
                       (fresh [Answer no_content]) = [target]
    ∧ url <$> requests (Monitors.delete client "abc-123")
                       (fresh [Answer no_content]) = [target]
    ∧ url <$> requests (Monitors.update_script client "abc-123"
                          (VStr "Y29uc29sZS5sb2coMSk=") VNone)
                       (fresh [Answer no_content])
      = [target +:+ "/script"].
Proof.
  apply (methods_of_one_id_share_url client "abc-123" name type frequency
           locations status extra (VStr "Y29uc29sZS5sb2coMSk=") VNone
           (fresh [Answer no_content])).
  reflexivity.
Defined.

Lemma payload_keys_witness :
  ∃ payload : gmap string PyVal,
    data <$> requests
      (Monitors.update client "abc-123" name type frequency locations status
                       extra) (fresh [Answer no_content])
      = [Some payload]
    ∧ dom payload
      = {[ "name"; "type"; "frequency"; "locations"; "status" ]} ∪ dom extra
    ∧ ({[ "name"; "type"; "frequency"; "locations"; "status" ]} : gset string)
        ## dom extra
    ∧ payload !! "id" = None.
Proof.
  apply (proj2 (payload_keys client "abc-123" name type frequency locations
                  status extra (fresh [Answer created])
                  (fresh [Answer no_content]))).
  reflexivity.
Defined.

End MoreSamples.
